(** * The task edit form (create / update / delete workflow)

    A shallow embedding of the [Render] component of the task screen:
    the form seeds ([useForm] default values), the [TaskSchema] validation,
    the [onSubmit] handler, the delete confirmation handler and the
    controls the component renders, followed by the properties of the
    workflow.

    The component is event driven.  A handler runs atomically up to its
    [await]; the awaited gateway call is kept in the state as an in-flight
    continuation and is resumed by a [Settle] event carrying the outcome
    of the call.  Every step returns the effects it emitted (gateway
    calls, toasts, router calls) in program order.

    The user acts on the component through the controls it renders and
    through the keyboard: Enter in the title input submits the form the
    way the browser does it.  Router calls are recorded as effects and
    the component is followed for as long as it stays mounted. *)

From Stdlib Require Import String List Bool Arith Lia.
Import ListNotations.
Open Scope string_scope.
Open Scope list_scope.

(** ** JavaScript values reaching the form *)

(** The values that flow through the form fields: a string, or one of the
    two empty values of JavaScript. *)
Inductive JsValue : Type :=
| JsUndefined
| JsNull
| JsString (s : string).

(** [a ?? b] *)
Definition nullish (a b : JsValue) : JsValue :=
  match a with
  | JsUndefined | JsNull => b
  | JsString _ => a
  end.

(** Truthiness of a value: [undefined], [null] and [''] are falsy. *)
Definition truthy (a : JsValue) : bool :=
  match a with
  | JsUndefined | JsNull => false
  | JsString s => negb (s =? "")
  end.

(** [a || b] *)
Definition js_or (a b : JsValue) : JsValue :=
  if truthy a then a else b.

(** String conversion as done by a template literal [`${a}`]. *)
Definition template (a : JsValue) : string :=
  match a with
  | JsUndefined => "undefined"
  | JsNull => "null"
  | JsString s => s
  end.

Definition is_string (a : JsValue) : bool :=
  match a with
  | JsString _ => true
  | _ => false
  end.

(** ** Data *)

(** The entity handed to the component ([GetTaskFnDataType]); only the
    identity and the editable fields take part in the workflow.  The
    editable fields are read defensively by the component, so they are
    kept as JavaScript values. *)
Module Task.
Record t : Type := mk
  { id : string;
    title : JsValue;
    status : JsValue;
    description : JsValue }.
End Task.

(** The props of [Render]. *)
Record Props : Type := mkProps
  { task : option Task.t;
    canUpdate : bool;
    canCreate : bool;
    canDelete : bool }.

(** [task?.f] *)
Definition opt_chain (f : Task.t -> JsValue) (t : option Task.t) : JsValue :=
  match t with
  | None => JsUndefined
  | Some x => f x
  end.

(** The raw field values held by the form. *)
Module FormValues.
Record t : Type := mk
  { title : JsValue;
    status : JsValue;
    description : JsValue }.
End FormValues.

(** [z.infer<typeof TaskSchema>]: the validated draft. *)
Module FormData.
Record t : Type := mk
  { title : string;
    status : string;
    description : option string }.
End FormData.

(** The issue codes the schema can raise. *)
Inductive ZodIssue : Type :=
| invalid_type
| too_small
| invalid_enum_value.

(** Per-field errors shown by the [FormMessage] of each field. *)
Module FieldErrors.
Record t : Type := mk
  { title : option ZodIssue;
    status : option ZodIssue;
    description : option ZodIssue }.
Definition none : t := mk None None None.
Definition is_empty (e : t) : bool :=
  match title e, status e, description e with
  | None, None, None => true
  | _, _, _ => false
  end.
End FieldErrors.

(** [defaultValues] of [useForm]. *)
Definition defaultValues (p : Props) : FormValues.t :=
  FormValues.mk
    (nullish (opt_chain Task.title (task p)) (JsString ""))
    (js_or (opt_chain Task.status (task p)) (JsString "Todo"))
    (nullish (opt_chain Task.description (task p)) (JsString "")).

(** ** Effects and gateway outcomes *)

Inductive ToastVariant : Type :=
| default
| destructive.

Inductive Effect : Type :=
| createTask (data : FormData.t)
| updateTask (id : string) (data : FormData.t)
| deleteTask (id : string)
| toast (title : string) (variant : ToastVariant)
| router_replace (href : string)
| router_push (href : string)
| router_back.

Definition is_gateway_call (e : Effect) : bool :=
  match e with
  | createTask _ | updateTask _ _ | deleteTask _ => true
  | _ => false
  end.

Definition is_navigation (e : Effect) : bool :=
  match e with
  | router_replace _ | router_push _ | router_back => true
  | _ => false
  end.

Definition is_success_notification (e : Effect) : bool :=
  match e with
  | toast _ default => true
  | _ => false
  end.

Definition is_failure_notification (e : Effect) : bool :=
  match e with
  | toast _ destructive => true
  | _ => false
  end.

Definition count (f : Effect -> bool) (l : list Effect) : nat :=
  length (filter f l).

(** The errors a gateway call may be rejected with; the component does
    not look at them. *)
Inductive GatewayError : Type :=
| ValidationError
| NotFoundError
| RemoteError.

(** How an awaited call settles. *)
Inductive Settled : Type :=
| Fulfilled (value : JsValue)
| Rejected (err : GatewayError).

(** An awaited gateway call together with the rest of its handler. *)
Inductive Awaiting : Type :=
| await_createTask
| await_updateTask
| await_deleteTask.

(** ** State of one mounted component *)

Record State : Type := mkState
  { values : FormValues.t;
    errors : FieldErrors.t;
    isSaving : bool;
    isDeleting : bool;
    dialogOpen : bool;
    inflight : list Awaiting;
    isSubmitted : bool }.

Definition setValues (v : FormValues.t) (st : State) : State :=
  mkState v (errors st) (isSaving st) (isDeleting st) (dialogOpen st) (inflight st)
          (isSubmitted st).

Definition setErrors (e : FieldErrors.t) (st : State) : State :=
  mkState (values st) e (isSaving st) (isDeleting st) (dialogOpen st) (inflight st)
          (isSubmitted st).

Definition setIsSaving (b : bool) (st : State) : State :=
  mkState (values st) (errors st) b (isDeleting st) (dialogOpen st) (inflight st)
          (isSubmitted st).

Definition setIsDeleting (b : bool) (st : State) : State :=
  mkState (values st) (errors st) (isSaving st) b (dialogOpen st) (inflight st)
          (isSubmitted st).

Definition setDialogOpen (b : bool) (st : State) : State :=
  mkState (values st) (errors st) (isSaving st) (isDeleting st) b (inflight st)
          (isSubmitted st).

Definition setInflight (l : list Awaiting) (st : State) : State :=
  mkState (values st) (errors st) (isSaving st) (isDeleting st) (dialogOpen st) l
          (isSubmitted st).

(** The form's own record that a submission has happened; from then on
    the form validates a field again whenever it changes. *)
Definition setIsSubmitted (b : bool) (st : State) : State :=
  mkState (values st) (errors st) (isSaving st) (isDeleting st) (dialogOpen st)
          (inflight st) b.

(** The state at mount: [useForm] seeds and the two [useState(false)]. *)
Definition init (p : Props) : State :=
  mkState (defaultValues p) FieldErrors.none false false false [] false.

(** The lifecycle read off the two in-flight flags; the two flags are
    independent pieces of state, so both being set has no lifecycle. *)
Inductive Lifecycle : Type :=
| Idle
| Saving
| Deleting.

Definition lifecycle (st : State) : option Lifecycle :=
  match isSaving st, isDeleting st with
  | false, false => Some Idle
  | true, false => Some Saving
  | false, true => Some Deleting
  | true, true => None
  end.

(** ** Controls rendered by the component *)

Record Control : Type := mkControl
  { rendered : bool;
    disabled : bool }.

Definition has_task (p : Props) : bool :=
  match task p with
  | Some _ => true
  | None => false
  end.

(** The submit button: [(task ? canUpdate : canCreate)], disabled while
    saving or deleting. *)
Definition saveButton (p : Props) (st : State) : Control :=
  mkControl (if has_task p then canUpdate p else canCreate p)
            (isSaving st || isDeleting st).

(** The button that opens the confirmation: [task && canDelete]. *)
Definition deleteButton (p : Props) (st : State) : Control :=
  mkControl (has_task p && canDelete p) (isSaving st || isDeleting st).

(** The link to a fresh form: [task && canCreate]. *)
Definition newButton (p : Props) (st : State) : Control :=
  mkControl (has_task p && canCreate p) (isSaving st || isDeleting st).

Definition backButton : Control := mkControl true false.

(** The three field inputs are disabled while saving only. *)
Definition fieldInput (st : State) : Control :=
  mkControl true (isSaving st).

(** Modelled from the spec: the [AlertDialog] component family
    (components/ui/alert-dialog) is not among the sources.  The spec asks
    for an interstitial confirmation step that the user must explicitly
    accept and whose cancellation changes nothing: the dialog keeps an
    open flag of its own, its trigger opens it, [Cancel] and the action
    button close it, its two buttons exist only while it is open, and
    while it is open it covers the rest of the page.  The dialog is
    mounted only where the component renders it ([task && canDelete]). *)
Definition dialogShown (p : Props) (st : State) : bool :=
  has_task p && canDelete p && dialogOpen st.

(** A control of the page can be operated when it is rendered, enabled
    and not covered by the confirmation. *)
Definition usable (p : Props) (st : State) (c : Control) : bool :=
  rendered c && negb (disabled c) && negb (dialogShown p st).

(** ** Events *)

(** What can happen to a mounted component: the user operates one of the
    controls, or an awaited gateway call (the [n]-th one in flight)
    settles.  [ClickSave] is the submission of the form through its
    submit button, [PressEnter] the Enter key in the title input, the
    only text input of the form. *)
Inductive Event : Type :=
| ClickBack
| ClickSave
| ClickDelete
| ClickCancel
| ClickContinue
| ClickNew
| PressEnter
| ChangeTitle (s : string)
| ChangeStatus (s : string)
| ChangeDescription (s : string)
| Settle (n : nat) (r : Settled).

Definition remove_nth {A : Type} (n : nat) (l : list A) : list A :=
  firstn n l ++ skipn (S n) l.

(** ** The user avatar and the application layout *)

(** The fields of a user that the shell reads. *)
Module User.
Record t : Type := mk
  { name : JsValue;
    image : JsValue;
    email : JsValue }.
End User.

(** What [UserAvatar] puts inside the [Avatar]: the picture, or the
    fallback with the name for screen readers and the user icon. *)
Inductive AvatarContent : Type :=
| AvatarImage (alt : string) (src : JsValue)
| AvatarFallback (sr_only : JsValue).

(** [UserAvatar]: the remaining props are handed to [Avatar] as they
    are. *)
Definition UserAvatar {P : Type} (user : User.t) (props : P)
  : P * AvatarContent :=
  (props,
   if truthy (User.image user)
   then AvatarImage "Picture" (User.image user)
   else AvatarFallback (User.name user)).

(** The session returned by [getAuthSession]; its user may be absent. *)
Module Session.
Record t : Type := mk
  { user : option User.t }.
End Session.

Record NavItem : Type := mkNavItem
  { nav_title : string;
    href : string;
    icon : option string }.

(** The page [Layout] renders around its children. *)
Record Shell (C : Type) : Type := mkShell
  { logoLink : string;
    mainNav : list NavItem;
    modules_task : bool;
    account : User.t;
    sideNav : list NavItem;
    children : C }.

Arguments mkShell {C}.
Arguments logoLink {C}.
Arguments mainNav {C}.
Arguments modules_task {C}.
Arguments account {C}.
Arguments sideNav {C}.
Arguments children {C}.

Inductive LayoutResult (C : Type) : Type :=
| notFound
| rendered_shell (page : Shell C).

Arguments notFound {C}.
Arguments rendered_shell {C}.

(** [Layout], given the session that [getAuthSession] resolved to. *)
Definition Layout {C : Type} (session : option Session.t) (content : C)
  : LayoutResult C :=
  match session with
  | Some (Session.mk (Some u)) =>
      rendered_shell
        (mkShell "/dashboard"
           [mkNavItem "Dashboard" "/dashboard" None;
            mkNavItem "Users" "/users" None;
            mkNavItem "Tasks" "/tasks" None]
           true
           (User.mk (User.name u) (User.image u) (User.email u))
           [mkNavItem "Dashboard" "/dashboard" (Some "dashboard");
            mkNavItem "Users" "/users" (Some "user");
            mkNavItem "Tasks" "/tasks" (Some "task");
            mkNavItem "Settings" "/settings" (Some "settings")]
           content)
  | _ => notFound
  end.

(** ** Further observations on effects *)

Definition is_notification (e : Effect) : bool :=
  match e with
  | toast _ _ => true
  | _ => false
  end.

Definition is_router_replace (e : Effect) : bool :=
  match e with
  | router_replace _ => true
  | _ => false
  end.

(** An entry of the status select. *)
Record SelectOption : Type := mkSelectOption
  { label : string;
    value : string }.

(** ** Sample data

    The data of the examples the workflow is tried on. *)

Definition sample_statuses : list string := ["Todo"; "InProgress"; "Done"].

Definition new_task_props : Props := mkProps None false true false.

Definition ship_report : State :=
  mkState (FormValues.mk (JsString "Ship report") (JsString "InProgress")
             (JsString ""))
          FieldErrors.none false false false [] false.

Definition ship_report_data : FormData.t :=
  FormData.mk "Ship report" "InProgress" (Some "").

Definition task7 : Task.t :=
  Task.mk "7" (JsString "Fix login") (JsString "Todo") JsNull.

Definition edit_props : Props := mkProps (Some task7) true true true.

Definition task7_data : FormData.t :=
  FormData.mk "Fix login" "Todo" (Some "").

Definition untitled7 : State :=
  mkState (FormValues.mk (JsString "") (JsString "Todo") (JsString ""))
          FieldErrors.none false false false [] false.

Definition confirming7 : State :=
  mkState (defaultValues edit_props) FieldErrors.none false false true []
          false.

Definition saving7 : State :=
  mkState (defaultValues edit_props) FieldErrors.none true false false
          [await_updateTask] true.

Definition deleting7 : State :=
  mkState (defaultValues edit_props) FieldErrors.none false true false
          [await_deleteTask] false.

(** Task "7" opened by a user who may delete but not update. *)
Definition readonly_props : Props := mkProps (Some task7) false true true.

(** A new-task form opened by a user who may not create. *)
Definition no_create_props : Props := mkProps None true false true.

(** Task "7" with its delete and an update in flight together. *)
Definition overlap7 : State :=
  mkState (defaultValues readonly_props) FieldErrors.none true true false
          [await_deleteTask; await_updateTask] true.

Definition plain_task : Task.t :=
  Task.mk "9" (JsString "Write docs") (JsString "Done") (JsString "Soon").

Definition avatar_user : User.t :=
  User.mk (JsString "Ada") (JsString "") (JsString "ada@example.org").

Section Workflow.

(** The members of the [TaskStatus] enumeration of the database client,
    which is generated outside the sources at hand. *)
Variable TaskStatus : list string.

Definition is_status (s : string) : bool :=
  existsb (String.eqb s) TaskStatus.

(** *** [TaskSchema] *)

(** [z.string().nonempty()] *)
Definition z_string_nonempty (v : JsValue) : string + ZodIssue :=
  match v with
  | JsString s => if s =? "" then inr too_small else inl s
  | _ => inr invalid_type
  end.

(** [z.nativeEnum(TaskStatus)] *)
Definition z_nativeEnum (v : JsValue) : string + ZodIssue :=
  match v with
  | JsString s => if is_status s then inl s else inr invalid_enum_value
  | _ => inr invalid_type
  end.

(** [z.string().optional()] *)
Definition z_string_optional (v : JsValue) : option string + ZodIssue :=
  match v with
  | JsUndefined => inl None
  | JsString s => inl (Some s)
  | JsNull => inr invalid_type
  end.

Definition issue {A : Type} (r : A + ZodIssue) : option ZodIssue :=
  match r with
  | inl _ => None
  | inr i => Some i
  end.

(** The object schema checks every field and reports all issues. *)
Definition TaskSchema (v : FormValues.t) : FormData.t + FieldErrors.t :=
  match z_string_nonempty (FormValues.title v),
        z_nativeEnum (FormValues.status v),
        z_string_optional (FormValues.description v) with
  | inl t, inl s, inl d => inl (FormData.mk t s d)
  | rt, rs, rd => inr (FieldErrors.mk (issue rt) (issue rs) (issue rd))
  end.

(** *** Handlers *)

(** [onSubmit] up to its [await]: [setIsSaving(true)], then the call of
    the branch chosen by [!task]. *)
Definition onSubmit_begin (p : Props) (data : FormData.t) (st : State)
  : State * list Effect :=
  let st1 := setIsSaving true st in
  match task p with
  | None =>
      (setInflight (inflight st1 ++ [await_createTask]) st1,
       [createTask data])
  | Some t =>
      (setInflight (inflight st1 ++ [await_updateTask]) st1,
       [updateTask (Task.id t) data])
  end.

(** [onSubmit] after [createTask] settled: the rest of the [try] block or
    the [catch] block, then [setIsSaving(false)]. *)
Definition onSubmit_created (r : Settled) (st : State) : State * list Effect :=
  match r with
  | Fulfilled newId =>
      (setIsSaving false st,
       [router_replace (String.append "/tasks/" (template newId));
        toast "Task saved" default])
  | Rejected _ =>
      (setIsSaving false st, [toast "Error saving task" destructive])
  end.

(** [onSubmit] after [updateTask] settled. *)
Definition onSubmit_updated (r : Settled) (st : State) : State * list Effect :=
  match r with
  | Fulfilled _ => (setIsSaving false st, [toast "Task saved" default])
  | Rejected _ =>
      (setIsSaving false st, [toast "Error saving task" destructive])
  end.

(** [form.handleSubmit(onSubmit)]: the resolver runs first and its errors
    replace the shown ones; [onSubmit] is called only with a validated
    draft.  Either way the form counts as submitted (it records so once
    [onSubmit] has returned; until then the inputs are disabled). *)
Definition handleSubmit (p : Props) (st : State) : State * list Effect :=
  match TaskSchema (values st) with
  | inl data =>
      onSubmit_begin p data
        (setIsSubmitted true (setErrors FieldErrors.none st))
  | inr errs => (setIsSubmitted true (setErrors errs st), [])
  end.

(** A field changed through its input: the value is stored, and once the
    form has been submitted ([useForm] re-validates on change by
    default) the resolver runs again and the error of the changed field,
    and of that field only, is brought up to date. *)
Definition onChange_title (s : string) (st : State) : State :=
  let st1 := setValues (FormValues.mk (JsString s)
                          (FormValues.status (values st))
                          (FormValues.description (values st))) st in
  if isSubmitted st
  then setErrors (FieldErrors.mk (issue (z_string_nonempty (JsString s)))
                    (FieldErrors.status (errors st))
                    (FieldErrors.description (errors st))) st1
  else st1.

Definition onChange_status (s : string) (st : State) : State :=
  let st1 := setValues (FormValues.mk (FormValues.title (values st))
                          (JsString s)
                          (FormValues.description (values st))) st in
  if isSubmitted st
  then setErrors (FieldErrors.mk (FieldErrors.title (errors st))
                    (issue (z_nativeEnum (JsString s)))
                    (FieldErrors.description (errors st))) st1
  else st1.

Definition onChange_description (s : string) (st : State) : State :=
  let st1 := setValues (FormValues.mk (FormValues.title (values st))
                          (FormValues.status (values st))
                          (JsString s)) st in
  if isSubmitted st
  then setErrors (FieldErrors.mk (FieldErrors.title (errors st))
                    (FieldErrors.status (errors st))
                    (issue (z_string_optional (JsString s)))) st1
  else st1.

(** Enter in a text input submits the form implicitly: through the
    form's submit button when there is one, and then only if that button
    is enabled; directly when the form has no submit button, the title
    being its only text input. *)
Definition implicit_submission (submit : Control) : bool :=
  negb (rendered submit) || negb (disabled submit).

(** The [onClick] of the confirmation's action button up to its [await]. *)
Definition onDelete_begin (t : Task.t) (st : State) : State * list Effect :=
  let st1 := setIsDeleting true st in
  (setInflight (inflight st1 ++ [await_deleteTask]) st1,
   [deleteTask (Task.id t)]).

(** The same handler after [deleteTask] settled. *)
Definition onDelete_deleted (r : Settled) (st : State) : State * list Effect :=
  match r with
  | Fulfilled _ =>
      (setIsDeleting false st,
       [toast "Task deleted" default; router_push "/tasks"])
  | Rejected _ =>
      (setIsDeleting false st, [toast "Error deleting task" destructive])
  end.

Definition resume (k : Awaiting) (r : Settled) (st : State)
  : State * list Effect :=
  match k with
  | await_createTask => onSubmit_created r st
  | await_updateTask => onSubmit_updated r st
  | await_deleteTask => onDelete_deleted r st
  end.

(** *** One step of the component *)

(** [step p st e] is [None] when the event cannot happen in [st] (its
    control is missing, disabled or covered, or no such call is in
    flight); otherwise the next state and the effects emitted.  The
    form's [onSubmit] is reached by [ClickSave] and by [PressEnter]. *)
Definition step (p : Props) (st : State) (e : Event)
  : option (State * list Effect) :=
  match e with
  | ClickBack =>
      if usable p st backButton then Some (st, [router_back]) else None
  | ClickSave =>
      if usable p st (saveButton p st) then Some (handleSubmit p st) else None
  | ClickDelete =>
      if usable p st (deleteButton p st)
      then Some (setDialogOpen true st, [])
      else None
  | ClickCancel =>
      if dialogShown p st then Some (setDialogOpen false st, []) else None
  | ClickContinue =>
      match task p with
      | Some t =>
          if dialogShown p st
          then Some (onDelete_begin t (setDialogOpen false st))
          else None
      | None => None
      end
  | ClickNew =>
      if usable p st (newButton p st)
      then Some (st, [router_push "/tasks/new"])
      else None
  | PressEnter =>
      if usable p st (fieldInput st) && implicit_submission (saveButton p st)
      then Some (handleSubmit p st)
      else None
  | ChangeTitle s =>
      if usable p st (fieldInput st)
      then Some (onChange_title s st, [])
      else None
  | ChangeStatus s =>
      if usable p st (fieldInput st) && is_status s
      then Some (onChange_status s st, [])
      else None
  | ChangeDescription s =>
      if usable p st (fieldInput st)
      then Some (onChange_description s st, [])
      else None
  | Settle n r =>
      match nth_error (inflight st) n with
      | Some k => Some (resume k r (setInflight (remove_nth n (inflight st)) st))
      | None => None
      end
  end.

(** A sequence of events from a state, with the effects in order. *)
Fixpoint run (p : Props) (st : State) (evs : list Event)
  : option (State * list Effect) :=
  match evs with
  | [] => Some (st, [])
  | e :: evs' =>
      match step p st e with
      | Some (st1, effs1) =>
          match run p st1 evs' with
          | Some (st2, effs2) => Some (st2, effs1 ++ effs2)
          | None => None
          end
      | None => None
      end
  end.

(** The states a mounted component can be in. *)
Definition reachable (p : Props) (st : State) : Prop :=
  exists evs effs, run p (init p) evs = Some (st, effs).


(** The shape of every state the component can reach: the dialog is open
    only where it is mounted and only while nothing is going on, and the
    flags tell what is in flight.  A save and a delete can be in flight
    together only when the delete came first and the Save button is not
    rendered. *)
Definition consistent (p : Props) (st : State) : bool :=
  implb (dialogOpen st) (has_task p && canDelete p) &&
  match inflight st with
  | [] => negb (isSaving st) && negb (isDeleting st)
  | [await_createTask] =>
      negb (has_task p) &&
      isSaving st && negb (isDeleting st) && negb (dialogOpen st)
  | [await_updateTask] =>
      has_task p &&
      isSaving st && negb (isDeleting st) && negb (dialogOpen st)
  | [await_deleteTask] =>
      has_task p &&
      negb (isSaving st) && isDeleting st && negb (dialogOpen st)
  | [await_deleteTask; await_updateTask] =>
      has_task p && negb (canUpdate p) &&
      isSaving st && isDeleting st && negb (dialogOpen st)
  | _ => false
  end.

(** The events that belong to the delete confirmation. *)
Definition is_delete_event (e : Event) : bool :=
  match e with
  | ClickDelete | ClickCancel | ClickContinue => true
  | _ => false
  end.

Definition is_save_event (e : Event) : bool :=
  match e with
  | ClickSave | PressEnter => true
  | _ => false
  end.

Definition all_strings (v : FormValues.t) : bool :=
  is_string (FormValues.title v) &&
  is_string (FormValues.status v) &&
  is_string (FormValues.description v).

(** No event of the sequence is of the given kind. *)
Definition avoids (kind : Event -> bool) (evs : list Event) : bool :=
  forallb (fun e => negb (kind e)) evs.

(** The props with one capability flag replaced. *)
Definition withCanCreate (b : bool) (p : Props) : Props :=
  mkProps (task p) (canUpdate p) b (canDelete p).

Definition withCanUpdate (b : bool) (p : Props) : Props :=
  mkProps (task p) b (canCreate p) (canDelete p).

Definition withCanDelete (b : bool) (p : Props) : Props :=
  mkProps (task p) (canUpdate p) (canCreate p) b.

(** [statuses]: the options of the status select, one per member of the
    enumeration, labelled by [generateLabel] (a helper outside the
    sources at hand, taken as given). *)
Definition statuses (generateLabel : string -> string) : list SelectOption :=
  map (fun x => mkSelectOption (generateLabel x) x) TaskStatus.

(** A gateway call addressed as the props demand: only [createTask]
    without a task, only [updateTask] and [deleteTask] of the supplied
    identity with one. *)
Definition addressed (p : Props) (e : Effect) : bool :=
  match e, task p with
  | createTask _, None => true
  | updateTask id _, Some t => id =? Task.id t
  | deleteTask id, Some t => id =? Task.id t
  | createTask _, Some _ => false
  | updateTask _ _, None => false
  | deleteTask _, None => false
  | _, _ => true
  end.

(** The draft carried by a gateway call satisfies the schema's rules on
    title and status. *)
Definition valid_payload (e : Effect) : bool :=
  match e with
  | createTask d | updateTask _ d =>
      negb (FormData.title d =? "") && is_status (FormData.status d)
  | _ => true
  end.

(** ** Shape of reachable states *)

Lemma init_consistent (p : Props) : consistent p (init p) = true.
Proof.
  unfold consistent, init; simpl. reflexivity.
Qed.

Ltac split_state st :=
  let v := fresh "v" in
  let er := fresh "er" in
  let sv := fresh "sv" in
  let dl := fresh "dl" in
  let dg := fresh "dg" in
  let fl := fresh "fl" in
  let sb := fresh "sb" in
  destruct st as [v er sv dl dg fl sb].

Ltac split_props p :=
  let tk := fresh "tk" in
  let cu := fresh "cu" in
  let cc := fresh "cc" in
  let cd := fresh "cd" in
  destruct p as [tk cu cc cd].

Ltac short_inflight fl :=
  let k := fresh "k" in
  let k' := fresh "k" in
  let k'' := fresh "k" in
  destruct fl as [|k [|k' [|k'' fl]]];
  [ | destruct k | destruct k, k' | destruct k, k' ].

(** Case analysis on a step that is known to have happened. *)
Ltac step_cases Hs :=
  repeat match type of Hs with
         | context [TaskSchema ?v] => destruct (TaskSchema v); simpl in Hs
         | context [is_status ?s] => destruct (is_status s); simpl in Hs
         | context [nth_error _ ?n] =>
             destruct n as [|[|[|n]]]; simpl in Hs; try discriminate;
             match goal with
             | r : Settled |- _ => destruct r; simpl in Hs
             end
         end.

Lemma step_consistent (p : Props) (st st' : State) (e : Event)
      (effs : list Effect) :
  consistent p st = true ->
  step p st e = Some (st', effs) ->
  consistent p st' = true.
Proof.
  split_props p. split_state st.
  unfold consistent, step, usable, dialogShown, handleSubmit, onSubmit_begin,
    onDelete_begin, onChange_title, onChange_status, onChange_description,
    implicit_submission, has_task; simpl.
  intros Hc Hs.
  short_inflight fl; simpl in Hc;
    try (rewrite ?andb_false_r in Hc; discriminate).
  all: destruct tk as [t|], cu, cd, sv, dl, dg; simpl in Hc; try discriminate.
  all: destruct e; simpl in Hs; try discriminate.
  all: try (destruct cc; simpl in Hs; try discriminate).
  all: try (destruct sb; simpl in Hs).
  all: step_cases Hs.
  all: try discriminate.
  all: try (injection Hs as <- <-; reflexivity).
Qed.

Lemma run_consistent (p : Props) (evs : list Event) :
  forall st st' effs,
    consistent p st = true ->
    run p st evs = Some (st', effs) ->
    consistent p st' = true.
Proof.
  induction evs as [|e evs IH]; simpl; intros st st' effs Hc Hr.
  - injection Hr as <- _. exact Hc.
  - destruct (step p st e) as [[st1 effs1]|] eqn:Hs; [|discriminate].
    destruct (run p st1 evs) as [[st2 effs2]|] eqn:Hr1; [|discriminate].
    injection Hr as <- _.
    eapply IH; [|exact Hr1].
    eapply step_consistent; eassumption.
Qed.

Lemma reachable_consistent (p : Props) (st : State) :
  reachable p st -> consistent p st = true.
Proof.
  intros (evs & effs & Hr).
  eapply run_consistent; [apply init_consistent | exact Hr].
Qed.

Lemma reachable_step (p : Props) (st st' : State) (e : Event)
      (effs : list Effect) :
  reachable p st -> step p st e = Some (st', effs) -> reachable p st'.
Proof.
  intros (evs & effs0 & Hr) Hs.
  exists (evs ++ [e]), (effs0 ++ effs).
  revert Hr. generalize (init p) as s0. revert effs0.
  induction evs as [|e0 evs IH]; simpl; intros effs0 s0 Hr.
  - injection Hr as -> <-. rewrite Hs. simpl. rewrite app_nil_r. reflexivity.
  - destruct (step p s0 e0) as [[s1 effs1]|]; [|discriminate].
    destruct (run p s1 evs) as [[s2 effs2]|] eqn:Hr1; [|discriminate].
    injection Hr as -> <-.
    rewrite (IH effs2 s1 Hr1). rewrite app_assoc. reflexivity.
Qed.

(** In a consistent state the flags tell what is in flight. *)
Lemma consistent_idle (p : Props) (st : State) :
  consistent p st = true -> lifecycle st = Some Idle -> inflight st = [].
Proof.
  split_state st. unfold consistent, lifecycle; simpl.
  short_inflight fl; destruct sv, dl; simpl; intros Hc Hl;
    try discriminate; try reflexivity;
    repeat rewrite ?andb_false_r, ?andb_true_r in Hc; simpl in Hc;
    discriminate.
Qed.


Lemma TaskSchema_inl (v : FormValues.t) (data : FormData.t) :
  TaskSchema v = inl data ->
  FormValues.title v = JsString (FormData.title data) /\
  FormData.title data <> "" /\
  FormValues.status v = JsString (FormData.status data) /\
  is_status (FormData.status data) = true /\
  FormValues.description v =
    match FormData.description data with
    | Some d => JsString d
    | None => JsUndefined
    end.
Proof.
  destruct v as [[| |t] [| |s] [| |d]]; unfold TaskSchema; simpl;
    try discriminate;
    try (destruct (t =? ""); discriminate);
    destruct (t =? "") eqn:Et; try discriminate;
    destruct (is_status s) eqn:Es; try discriminate;
    intros H; injection H as <-; simpl;
    apply String.eqb_neq in Et; repeat split; assumption.
Qed.

(** ** The Save operation *)

(** C1.  In creation mode, with [canCreate], an idle component and a
    draft that passes the schema, Save calls [createTask]; when the call
    is fulfilled with identity [N] the effects are exactly one navigation,
    to ["/tasks/N"], and one success notification, and the lifecycle goes
    Idle, Saving, Idle. *)
Theorem save_in_creation_mode (p : Props) (st : State) (data : FormData.t)
        (N : string) :
  task p = None ->
  canCreate p = true ->
  reachable p st ->
  lifecycle st = Some Idle ->
  TaskSchema (values st) = inl data ->
  exists st1 st2 effs,
    step p st ClickSave = Some (st1, [createTask data]) /\
    lifecycle st1 = Some Saving /\
    step p st1 (Settle 0 (Fulfilled (JsString N))) = Some (st2, effs) /\
    lifecycle st2 = Some Idle /\
    effs = [router_replace (String.append "/tasks/" N);
            toast "Task saved" default] /\
    count is_navigation effs = 1 /\
    count is_success_notification effs = 1 /\
    count is_failure_notification effs = 0.
Proof.
  intros Ht Hc Hr Hl Hv.
  pose proof (consistent_idle _ _ (reachable_consistent _ _ Hr) Hl) as Hf.
  split_props p. split_state st. simpl in *. subst tk cc fl.
  unfold lifecycle in Hl; simpl in Hl.
  destruct sv, dl; try discriminate.
  unfold step, usable, dialogShown, handleSubmit, has_task; simpl.
  rewrite Hv. simpl.
  do 3 eexists. repeat split.
Qed.

(** C8.  In edit mode, with [canUpdate], an idle component and a draft
    that passes the schema, Save calls [updateTask] with the identity of
    the supplied task and the validated draft fields; when the call is
    fulfilled the only effect is one success notification (no navigation)
    and the component is idle again with the same field values. *)
Theorem save_in_edit_mode (p : Props) (t : Task.t) (st : State)
        (data : FormData.t) (ret : JsValue) :
  task p = Some t ->
  canUpdate p = true ->
  reachable p st ->
  lifecycle st = Some Idle ->
  dialogOpen st = false ->
  TaskSchema (values st) = inl data ->
  exists st1 st2 effs,
    step p st ClickSave = Some (st1, [updateTask (Task.id t) data]) /\
    FormValues.title (values st) = JsString (FormData.title data) /\
    FormValues.status (values st) = JsString (FormData.status data) /\
    lifecycle st1 = Some Saving /\
    step p st1 (Settle 0 (Fulfilled ret)) = Some (st2, effs) /\
    lifecycle st2 = Some Idle /\
    effs = [toast "Task saved" default] /\
    count is_success_notification effs = 1 /\
    count is_navigation effs = 0 /\
    values st2 = values st.
Proof.
  intros Ht Hc Hr Hl Hd Hv.
  pose proof (consistent_idle _ _ (reachable_consistent _ _ Hr) Hl) as Hf.
  destruct (TaskSchema_inl _ _ Hv) as (Htitle & _ & Hstatus & _).
  split_props p. split_state st. simpl in *. subst tk cu dg fl.
  unfold lifecycle in Hl; simpl in Hl.
  destruct sv, dl; try discriminate.
  unfold step, usable, dialogShown, handleSubmit, has_task; simpl.
  rewrite andb_false_r. simpl.
  rewrite Hv. simpl.
  do 3 eexists. repeat split; assumption.
Qed.


(** ** The Delete operation *)


(** ** Lifecycle *)


(** ** Form values *)

Lemma defaultValues_strings (p : Props) :
  all_strings (defaultValues p) = true.
Proof.
  split_props p. unfold all_strings, defaultValues, js_or; simpl.
  destruct tk as [[i [| |t] [| |s] [| |d]]|]; simpl;
    try reflexivity; destruct (s =? ""); reflexivity.
Qed.

Lemma step_strings (p : Props) (st st' : State) (e : Event)
      (effs : list Effect) :
  all_strings (values st) = true ->
  step p st e = Some (st', effs) ->
  all_strings (values st') = true.
Proof.
  split_state st. unfold step, handleSubmit, onSubmit_begin,
    onDelete_begin, onChange_title, onChange_status, onChange_description.
  simpl. intros Hv Hs.
  destruct e; simpl in Hs;
    repeat match type of Hs with
           | context [match task p with _ => _ end] => destruct (task p)
           | context [if ?b then _ else _] => destruct b
           | context [TaskSchema ?x] => destruct (TaskSchema x)
           | context [nth_error ?l ?n] =>
               destruct (nth_error l n) as [[]|]; destruct r
           end;
    try discriminate; injection Hs as <- _; simpl; try exact Hv;
    unfold all_strings in *; simpl;
    destruct v as [[| |t] [| |s'] [| |d]]; simpl in *;
    try discriminate; reflexivity.
Qed.

Lemma reachable_strings (p : Props) (st : State) :
  reachable p st -> all_strings (values st) = true.
Proof.
  intros (evs & effs & Hr). revert Hr.
  generalize (defaultValues_strings p).
  change (defaultValues p) with (values (init p)).
  generalize (init p) as s0. revert effs.
  induction evs as [|e evs IH]; simpl; intros effs s0 Hv Hr.
  - injection Hr as <- _. exact Hv.
  - destruct (step p s0 e) as [[s1 effs1]|] eqn:Hs; [|discriminate].
    destruct (run p s1 evs) as [[s2 effs2]|] eqn:Hr1; [|discriminate].
    injection Hr as <- _.
    eapply IH; [|exact Hr1]. eapply step_strings; eassumption.
Qed.

(** C10.  The seeded field values are always strings: a task's title or
    description that is [null] or [undefined] is seeded as the empty
    string, without a task the seeds are [""], ["Todo"] and [""], and
    every state the component reaches holds strings in all three
    fields. *)
Theorem form_values_are_strings (p : Props) :
  all_strings (defaultValues p) = true /\
  (task p = None ->
   defaultValues p =
     FormValues.mk (JsString "") (JsString "Todo") (JsString "")) /\
  (forall t, task p = Some t ->
     (is_string (Task.title t) = false ->
      FormValues.title (defaultValues p) = JsString "") /\
     (is_string (Task.description t) = false ->
      FormValues.description (defaultValues p) = JsString "") /\
     (forall s, Task.title t = JsString s ->
      FormValues.title (defaultValues p) = JsString s) /\
     (forall s, Task.description t = JsString s ->
      FormValues.description (defaultValues p) = JsString s)) /\
  (forall st, reachable p st -> all_strings (values st) = true).
Proof.
  split; [apply defaultValues_strings|].
  split; [intros Ht; unfold defaultValues; rewrite Ht; reflexivity|].
  split; [|apply reachable_strings].
  intros t Ht. unfold defaultValues. rewrite Ht. simpl.
  repeat split.
  - destruct (Task.title t); [reflexivity|reflexivity|discriminate].
  - destruct (Task.description t); [reflexivity|reflexivity|discriminate].
  - intros s ->. reflexivity.
  - intros s ->. reflexivity.
Qed.

(** ** Validation *)


(** ** Confirmation of the delete *)

(** C4.  The confirmation starts closed.  A step emits a [deleteTask]
    call only when it is the acceptance of the showing confirmation, and
    the confirmation opens only through the Delete button, which itself
    emits nothing.  Cancelling the showing confirmation is always
    possible, emits nothing and changes neither the form values, the
    form errors, the two lifecycle flags nor the calls in flight. *)
Theorem delete_requires_confirmation (p : Props) (st : State) :
  dialogOpen (init p) = false /\
  (forall e st' effs,
      step p st e = Some (st', effs) ->
      (forall id, In (deleteTask id) effs ->
                  e = ClickContinue /\ dialogShown p st = true) /\
      (dialogOpen st = false -> dialogOpen st' = true ->
       e = ClickDelete /\ effs = [])) /\
  (forall st' effs,
      step p st ClickDelete = Some (st', effs) ->
      count is_gateway_call effs = 0) /\
  (dialogShown p st = true ->
   exists st',
     step p st ClickCancel = Some (st', []) /\
     values st' = values st /\
     errors st' = errors st /\
     isSaving st' = isSaving st /\
     isDeleting st' = isDeleting st /\
     lifecycle st' = lifecycle st /\
     inflight st' = inflight st).
Proof.
  split; [reflexivity|]. split; [|split].
  - intros e st' effs Hs.
    split_state st.
    unfold step, handleSubmit, onSubmit_begin, onDelete_begin,
      onChange_title, onChange_status, onChange_description in Hs.
    simpl in Hs.
    destruct e; simpl in Hs;
      repeat match type of Hs with
             | context [match task p with _ => _ end] => destruct (task p)
             | context [if ?b then _ else _] => destruct b eqn:?
             | context [TaskSchema ?x] => destruct (TaskSchema x)
             | context [nth_error ?l ?n] =>
                 destruct (nth_error l n) as [[]|]; destruct r
             end;
      try discriminate; injection Hs as <- <-; simpl;
      (split;
       [ intros id Hin; simpl in Hin;
         repeat match type of Hin with
                | _ \/ _ => destruct Hin as [Hin|Hin]
                end;
         try discriminate; try contradiction;
         try (split; [reflexivity|first [assumption|reflexivity]])
       | intros Hd Hd'; simpl in *; try congruence;
         try (split; reflexivity) ]).
  - intros st' effs Hs. unfold step in Hs.
    destruct (usable p st (deleteButton p st)); [|discriminate].
    injection Hs as _ <-. reflexivity.
  - intros Hd. unfold step. rewrite Hd.
    eexists. repeat split.
Qed.

(** ** Mutual exclusion *)

(** X17.  Where the Save button is rendered (the capability for the
    form's mode is there), in every reachable state the two flags are
    never both set and at most one gateway call is in flight, and one is
    in flight exactly when a flag is set.  Whenever a flag is set, the
    Save button and the Delete button are disabled, neither a Save, by
    button or by Enter, nor the opening of the confirmation, nor its
    acceptance can happen, and no step at all emits a gateway call. *)
Theorem no_overlap_when_save_is_offered (p : Props) (st : State) :
  rendered (saveButton p st) = true ->
  reachable p st ->
  isSaving st && isDeleting st = false /\
  lifecycle st <> None /\
  length (inflight st) <= 1 /\
  (isSaving st || isDeleting st = true <-> inflight st <> []) /\
  (isSaving st || isDeleting st = true ->
   disabled (saveButton p st) = true /\
   disabled (deleteButton p st) = true /\
   step p st ClickSave = None /\
   step p st PressEnter = None /\
   step p st ClickDelete = None /\
   step p st ClickContinue = None /\
   forall e st' effs,
     step p st e = Some (st', effs) -> count is_gateway_call effs = 0).
Proof.
  intros Hsave Hr.
  pose proof (reachable_consistent _ _ Hr) as Hc. clear Hr.
  split_props p. split_state st.
  unfold consistent, lifecycle, step, usable, dialogShown, handleSubmit,
    implicit_submission, onChange_title, onChange_status,
    onChange_description, saveButton, deleteButton, has_task in *;
    simpl in *.
  short_inflight fl; simpl in Hc;
    try (rewrite ?andb_false_r in Hc; discriminate).
  all: destruct tk as [t|], cu, cc, cd, sv, dl, dg; simpl in Hc, Hsave;
    try discriminate.
  all: simpl; rewrite ?andb_false_r; simpl.
  all: split; [reflexivity|].
  all: split; [discriminate|].
  all: split; [lia|].
  all: split; [split; [discriminate|]; intros H; try reflexivity;
                 exfalso; apply H; reflexivity|].
  all: intros Hb; try discriminate.
  all: repeat (split; [reflexivity|]).
  all: intros e st' effs Hs.
  all: destruct e; simpl in Hs; rewrite ?andb_false_r in Hs; simpl in Hs;
    try discriminate.
  all: repeat match type of Hs with
              | context [if ?b then _ else _] => destruct b
              | context [nth_error _ ?n] =>
                  destruct n as [|[|n]]; simpl in Hs; try discriminate;
                  destruct r; simpl in Hs
              end.
  all: try discriminate.
  all: injection Hs as _ <-; reflexivity.
Qed.

(** ** Capability flags *)

Lemma step_canCreate (b : bool) (p : Props) (st : State) (e : Event) :
  task p = None -> is_save_event e = false ->
  step (withCanCreate b p) st e = step p st e.
Proof.
  split_props p. simpl. intros -> He.
  destruct e; try discriminate; reflexivity.
Qed.

Lemma step_canUpdate (b : bool) (p : Props) (st : State) (e : Event) :
  is_save_event e = false ->
  step (withCanUpdate b p) st e = step p st e.
Proof.
  split_props p. intros He.
  destruct e; try discriminate; reflexivity.
Qed.

Lemma step_canDelete (b : bool) (p : Props) (st : State) (e : Event) :
  is_delete_event e = false -> dialogOpen st = false ->
  step (withCanDelete b p) st e = step p st e /\
  forall st' effs, step p st e = Some (st', effs) -> dialogOpen st' = false.
Proof.
  split_props p. split_state st. simpl. intros He ->.
  unfold step, usable, dialogShown, withCanDelete, handleSubmit,
    onSubmit_begin, onChange_title, onChange_status, onChange_description;
    simpl.
  rewrite !andb_false_r. simpl.
  destruct e; try discriminate; (split; [reflexivity|]);
    intros st' effs Hs;
    repeat match type of Hs with
           | context [match tk with _ => _ end] => destruct tk
           | context [if ?c then _ else _] => destruct c
           | context [TaskSchema ?x] => destruct (TaskSchema x)
           | context [nth_error ?l ?n] =>
               destruct (nth_error l n) as [[]|]; destruct r
           end;
    try discriminate; injection Hs as <- _; reflexivity.
Qed.

Lemma run_same (p q : Props) (kind : Event -> bool) (I : State -> Prop) :
  (forall st e, kind e = false -> I st ->
     step q st e = step p st e /\
     forall st' effs, step p st e = Some (st', effs) -> I st') ->
  forall evs st, avoids kind evs = true -> I st ->
     run q st evs = run p st evs.
Proof.
  intros Hstep. induction evs as [|e evs IH]; simpl; intros st Ha Hi.
  - reflexivity.
  - apply andb_prop in Ha. destruct Ha as [He Ha].
    apply negb_true_iff in He.
    destruct (Hstep st e He Hi) as [-> Hnext].
    destruct (step p st e) as [[st1 effs1]|]; [|reflexivity].
    rewrite (IH st1 Ha (Hnext _ _ eq_refl)). reflexivity.
Qed.

(** X16.  What the capability flags do gate.  Without [canCreate] and
    without a task the Save button is not rendered and cannot be
    clicked; likewise without [canUpdate] when a task is supplied;
    without [canDelete] neither the Delete button nor the confirmation's
    buttons can be operated.  Each flag gates nothing else: on every
    sequence of events that holds no submission of the form (for the two
    save flags, [canCreate] compared in creation mode), respectively no
    event of the confirmation (for [canDelete], from a state with the
    confirmation closed), the component runs the same with the flag off
    or on. *)
Theorem capability_flags_gate_buttons (p : Props) (st : State) :
  (task p = None -> canCreate p = false ->
   rendered (saveButton p st) = false /\ step p st ClickSave = None) /\
  (has_task p = true -> canUpdate p = false ->
   rendered (saveButton p st) = false /\ step p st ClickSave = None) /\
  (canDelete p = false ->
   rendered (deleteButton p st) = false /\
   step p st ClickDelete = None /\
   step p st ClickCancel = None /\
   step p st ClickContinue = None) /\
  (forall b evs,
      task p = None -> avoids is_save_event evs = true ->
      run (withCanCreate b p) st evs = run p st evs) /\
  (forall b evs,
      avoids is_save_event evs = true ->
      run (withCanUpdate b p) st evs = run p st evs) /\
  (forall b evs,
      dialogOpen st = false -> avoids is_delete_event evs = true ->
      run (withCanDelete b p) st evs = run p st evs).
Proof.
  split; [|split; [|split; [|split; [|split]]]].
  - intros Ht Hc. unfold step, usable, saveButton, has_task.
    rewrite Ht, Hc. split; reflexivity.
  - intros Ht Hc. unfold step, usable, saveButton.
    rewrite Ht, Hc. split; reflexivity.
  - intros Hc. unfold step, usable, dialogShown, deleteButton. simpl.
    rewrite Hc, !andb_false_r. simpl.
    destruct (task p); repeat split.
  - intros b evs Ht Ha.
    apply (run_same p (withCanCreate b p) is_save_event (fun _ => True));
      [|exact Ha|exact I].
    intros s e He _. split; [apply step_canCreate; assumption|trivial].
  - intros b evs Ha.
    apply (run_same p (withCanUpdate b p) is_save_event (fun _ => True));
      [|exact Ha|exact I].
    intros s e He _. split; [apply step_canUpdate; assumption|trivial].
  - intros b evs Hd Ha.
    apply (run_same p (withCanDelete b p) is_delete_event
             (fun s => dialogOpen s = false)); [|exact Ha|exact Hd].
    intros s e He Hs. apply step_canDelete; assumption.
Qed.

(** ** Further properties of the schema and the seeds *)

(** X1.  The schema accepts a draft exactly when the title is a non-empty
    string, the status a member of the enumeration and the description a
    string or [undefined]; the validated draft then carries these very
    values. *)
Theorem TaskSchema_accepts (v : FormValues.t) (data : FormData.t) :
  TaskSchema v = inl data <->
  (FormValues.title v = JsString (FormData.title data) /\
   FormData.title data <> "" /\
   FormValues.status v = JsString (FormData.status data) /\
   is_status (FormData.status data) = true /\
   FormValues.description v =
     match FormData.description data with
     | Some d => JsString d
     | None => JsUndefined
     end).
Proof.
  split; [apply TaskSchema_inl|].
  destruct v as [vt vs vd], data as [t s d]; simpl.
  intros (-> & Ht & -> & Hs & ->).
  unfold TaskSchema; simpl.
  apply String.eqb_neq in Ht. rewrite Ht, Hs.
  destruct d; reflexivity.
Qed.

Lemma TaskSchema_inr (v : FormValues.t) (errs : FieldErrors.t) :
  TaskSchema v = inr errs ->
  errs = FieldErrors.mk (issue (z_string_nonempty (FormValues.title v)))
           (issue (z_nativeEnum (FormValues.status v)))
           (issue (z_string_optional (FormValues.description v))) /\
  FieldErrors.is_empty errs = false.
Proof.
  unfold TaskSchema. intros H.
  destruct (z_string_nonempty (FormValues.title v)),
    (z_nativeEnum (FormValues.status v)),
    (z_string_optional (FormValues.description v)); try discriminate;
    injection H as <-; split; reflexivity.
Qed.

(** X2.  When the schema rejects a draft, some field carries an error, and
    each field carries one exactly when that field breaks its own rule,
    whatever the other fields hold: the title unless it is a non-empty
    string, the status unless it is a member of the enumeration, the
    description only when it is [null]. *)
Theorem TaskSchema_rejects (v : FormValues.t) (errs : FieldErrors.t) :
  TaskSchema v = inr errs ->
  FieldErrors.is_empty errs = false /\
  (FieldErrors.title errs = None <->
   exists s, FormValues.title v = JsString s /\ s <> "") /\
  (FieldErrors.status errs = None <->
   exists s, FormValues.status v = JsString s /\ is_status s = true) /\
  (FieldErrors.description errs = None <->
   FormValues.description v <> JsNull).
Proof.
  intros H. destruct (TaskSchema_inr _ _ H) as [-> He]. clear H.
  destruct v as [vt vs vd]. split; [exact He|]. simpl. clear He.
  split; [|split].
  - destruct vt as [| |t]; simpl.
    + split; [discriminate|intros (s & H & _); discriminate].
    + split; [discriminate|intros (s & H & _); discriminate].
    + destruct (t =? "") eqn:Et; simpl.
      * apply String.eqb_eq in Et. subst t.
        split; [discriminate|].
        intros (s & H & Hn). injection H as <-. congruence.
      * apply String.eqb_neq in Et. split; [|reflexivity].
        intros _. exists t. split; [reflexivity|exact Et].
  - destruct vs as [| |s]; simpl.
    + split; [discriminate|intros (s & H & _); discriminate].
    + split; [discriminate|intros (s & H & _); discriminate].
    + destruct (is_status s) eqn:Es; simpl.
      * split; [|reflexivity]. intros _. exists s. split; [reflexivity|exact Es].
      * split; [discriminate|].
        intros (s' & H & Hn). injection H as <-. congruence.
  - destruct vd; simpl; split; try discriminate; try reflexivity.
    intros H. contradiction H. reflexivity.
Qed.

(** X3.  A fresh creation form, where ["Todo"] is a member of the
    enumeration, fails the schema on the title alone, so a Save emits
    nothing and shows the title error; once any non-empty title is
    typed, Save calls [createTask] with that title, status ["Todo"] and
    the empty description. *)
Theorem fresh_form_needs_title (p : Props) (s : string) :
  task p = None ->
  canCreate p = true ->
  is_status "Todo" = true ->
  run p (init p) [ClickSave] =
    Some (setIsSubmitted true
            (setErrors (FieldErrors.mk (Some too_small) None None) (init p)),
          []) /\
  (s <> "" ->
   exists st',
     run p (init p) [ChangeTitle s; ClickSave] =
       Some (st', [createTask (FormData.mk s "Todo" (Some ""))]) /\
     lifecycle st' = Some Saving).
Proof.
  intros Ht Hc Htodo. split_props p. simpl in *. subst tk cc.
  split.
  - unfold run, step, usable, dialogShown, handleSubmit, TaskSchema; simpl.
    rewrite Htodo. reflexivity.
  - intros Hs. apply String.eqb_neq in Hs.
    unfold run, step, usable, dialogShown, handleSubmit, TaskSchema; simpl.
    rewrite Hs, Htodo. simpl. eexists. split; reflexivity.
Qed.

(** X4.  An edit form opened on a task with a non-empty title and a status of
    the enumeration passes the schema as seeded: a Save without any edit
    calls [updateTask] with the identity, title and status of the task,
    and with its description, where a [null] or missing description is
    sent as the empty string. *)
Theorem untouched_task_saves_its_fields (p : Props) (t : Task.t)
        (ti s : string) :
  task p = Some t ->
  canUpdate p = true ->
  Task.title t = JsString ti -> ti <> "" ->
  Task.status t = JsString s -> s <> "" -> is_status s = true ->
  exists st',
    run p (init p) [ClickSave] =
      Some (st',
            [updateTask (Task.id t)
               (FormData.mk ti s
                  (Some match Task.description t with
                        | JsString d => d
                        | _ => ""
                        end))]) /\
    lifecycle st' = Some Saving /\
    values st' = defaultValues p.
Proof.
  intros Ht Hc Hti Hne Hst Hsne Hs.
  set (d := match Task.description t with JsString d => d | _ => "" end).
  assert (Hv : defaultValues p =
               FormValues.mk (JsString ti) (JsString s) (JsString d)).
  { unfold defaultValues, js_or. rewrite Ht. simpl. rewrite Hti, Hst. simpl.
    apply String.eqb_neq in Hsne. rewrite Hsne. simpl.
    subst d. destruct (Task.description t); reflexivity. }
  assert (Hp : TaskSchema (defaultValues p) = inl (FormData.mk ti s (Some d))).
  { rewrite Hv. unfold TaskSchema; simpl.
    apply String.eqb_neq in Hne. rewrite Hne, Hs. reflexivity. }
  unfold run, step, usable, dialogShown, handleSubmit, onSubmit_begin,
    saveButton, has_task; simpl.
  rewrite Ht, Hc, Hp, andb_false_r. simpl.
  eexists. repeat split.
Qed.

(** ** Properties of whole runs *)

Lemma reachable_invariant (p : Props) (I : State -> Prop) :
  I (init p) ->
  (forall st e st' effs, I st -> step p st e = Some (st', effs) -> I st') ->
  forall st, reachable p st -> I st.
Proof.
  intros H0 Hstep st (evs & effs & Hr). revert Hr H0.
  generalize (init p) as s0. revert effs.
  induction evs as [|e evs IH]; simpl; intros effs s0 Hr H0.
  - injection Hr as <- _. exact H0.
  - destruct (step p s0 e) as [[s1 effs1]|] eqn:Hs; [|discriminate].
    destruct (run p s1 evs) as [[s2 effs2]|] eqn:Hr1; [|discriminate].
    injection Hr as <- _.
    eapply IH; [exact Hr1|]. eapply Hstep; eassumption.
Qed.

Lemma run_forallb (p : Props) (I : State -> Prop) (P : Effect -> bool) :
  (forall st e st' effs,
      I st -> step p st e = Some (st', effs) ->
      I st' /\ forallb P effs = true) ->
  forall evs st st' effs,
    I st -> run p st evs = Some (st', effs) ->
    I st' /\ forallb P effs = true.
Proof.
  intros Hstep. induction evs as [|e evs IH]; simpl; intros st st' effs Hi Hr.
  - injection Hr as <- <-. split; [exact Hi|reflexivity].
  - destruct (step p st e) as [[s1 effs1]|] eqn:Hs; [|discriminate].
    destruct (run p s1 evs) as [[s2 effs2]|] eqn:Hr1; [|discriminate].
    injection Hr as <- <-.
    destruct (Hstep _ _ _ _ Hi Hs) as [Hi1 Hp1].
    destruct (IH _ _ _ Hi1 Hr1) as [Hi2 Hp2].
    split; [exact Hi2|]. rewrite forallb_app, Hp1, Hp2. reflexivity.
Qed.

(** X5.  The status held by the form is the seeded one or a member of the
    enumeration, in every reachable state; so a status error, when the
    schema reports one, is always about the seeded status and never
    about a choice of the user. *)
Theorem status_is_seed_or_member (p : Props) (st : State) :
  reachable p st ->
  (FormValues.status (values st) = FormValues.status (defaultValues p) \/
   exists s, FormValues.status (values st) = JsString s /\
             is_status s = true) /\
  forall errs,
    TaskSchema (values st) = inr errs ->
    FieldErrors.status errs <> None ->
    FormValues.status (values st) = FormValues.status (defaultValues p).
Proof.
  intros Hr.
  assert (H : FormValues.status (values st) =
              FormValues.status (defaultValues p) \/
              exists s, FormValues.status (values st) = JsString s /\
                        is_status s = true).
  { revert st Hr. apply reachable_invariant.
    - left. reflexivity.
    - intros st e st' effs Hi Hs. split_state st.
      assert (Hstatus :
                forall s, e = ChangeStatus s -> is_status s = true /\
                  FormValues.status (values st') = JsString s).
      { intros s ->. simpl in Hs.
        destruct (usable p _ _ && is_status s) eqn:Hu; [|discriminate].
        apply andb_prop in Hu. destruct Hu as [_ Hu].
        injection Hs as <- _. split; [exact Hu|].
        unfold onChange_status. simpl. destruct sb; reflexivity. }
      destruct e; try (right; eexists; split; apply (Hstatus _ eq_refl)).
      all: clear Hstatus.
      all: unfold step, handleSubmit, onSubmit_begin, onDelete_begin,
        onChange_title, onChange_description in Hs; simpl in *.
      all: repeat match type of Hs with
                  | context [match task ?q with _ => _ end] =>
                      destruct (task q)
                  | context [if ?b then _ else _] => destruct b
                  | context [TaskSchema ?x] => destruct (TaskSchema x)
                  | context [nth_error ?l ?n] =>
                      destruct (nth_error l n) as [[]|]; destruct r
                  end.
      all: try discriminate.
      all: injection Hs as <- _; simpl; exact Hi. }
  split; [exact H|].
  intros errs He Hn. destruct H as [H|(s & Hs & Hm)]; [exact H|].
  exfalso. apply Hn.
  destruct (TaskSchema_inr _ _ He) as [-> _]. simpl.
  rewrite Hs. simpl. rewrite Hm. reflexivity.
Qed.

Lemma remove_nth_length {A : Type} (n : nat) (l : list A) (x : A) :
  nth_error l n = Some x -> S (length (remove_nth n l)) = length l.
Proof.
  revert l. induction n as [|n IH]; intros [|a l]; simpl; try discriminate.
  - intros _. unfold remove_nth. simpl. reflexivity.
  - intros H. specialize (IH l H). unfold remove_nth in *. simpl in *.
    rewrite IH. reflexivity.
Qed.

Lemma count_app (f : Effect -> bool) (a b : list Effect) :
  count f (a ++ b) = count f a + count f b.
Proof.
  unfold count. rewrite filter_app, length_app. reflexivity.
Qed.

Lemma step_balance (p : Props) (st st' : State) (e : Event)
      (effs : list Effect) :
  step p st e = Some (st', effs) ->
  count is_gateway_call effs + length (inflight st) =
  count is_notification effs + length (inflight st').
Proof.
  split_state st. unfold step, handleSubmit, onSubmit_begin,
    onDelete_begin, onChange_title, onChange_status, onChange_description.
  simpl. intros Hs.
  destruct e; simpl in Hs;
    try (repeat match type of Hs with
                | context [match task p with _ => _ end] => destruct (task p)
                | context [if ?b then _ else _] => destruct b
                | context [TaskSchema ?x] => destruct (TaskSchema x)
                end;
         try discriminate; injection Hs as <- <-; simpl;
         rewrite ?length_app; simpl; lia).
  destruct (nth_error fl n) as [k|] eqn:Hn; [|discriminate].
  apply remove_nth_length in Hn.
  destruct k, r; injection Hs as <- <-; simpl; lia.
Qed.

(** X6.  Along every run from the mounted component, each gateway call
    that has settled produced exactly one notification: the calls
    emitted are as many as the notifications emitted plus the calls
    still in flight. *)
Theorem calls_and_notifications_balance (p : Props) (evs : list Event)
        (st : State) (effs : list Effect) :
  run p (init p) evs = Some (st, effs) ->
  count is_gateway_call effs =
    count is_notification effs + length (inflight st).
Proof.
  intros Hr.
  assert (H : forall s0,
             run p s0 evs = Some (st, effs) ->
             count is_gateway_call effs + length (inflight s0) =
             count is_notification effs + length (inflight st)).
  { clear Hr. revert effs.
    induction evs as [|e evs IH]; simpl; intros effs s0 Hr.
    - injection Hr as <- <-. reflexivity.
    - destruct (step p s0 e) as [[s1 effs1]|] eqn:Hs; [|discriminate].
      destruct (run p s1 evs) as [[s2 effs2]|] eqn:Hr1; [|discriminate].
      injection Hr as <- <-.
      apply step_balance in Hs. specialize (IH _ _ Hr1).
      rewrite !count_app. lia. }
  specialize (H _ Hr). simpl in H. lia.
Qed.

(** X7.  Along every run, from any state, the gateway calls are addressed as
    the props demand: without a task only [createTask] is ever called,
    with a task only [updateTask] and [deleteTask], and always with the
    identity of that task. *)
Theorem calls_are_addressed (p : Props) (evs : list Event) (st st' : State)
        (effs : list Effect) :
  run p st evs = Some (st', effs) ->
  forallb (addressed p) effs = true.
Proof.
  intros Hr.
  apply (run_forallb p (fun _ => True) (addressed p)) in Hr;
    [apply Hr | | exact I].
  clear. intros st e st' effs _ Hs. split; [exact I|].
  split_state st. unfold step, handleSubmit, onSubmit_begin,
    onDelete_begin, onChange_title, onChange_status, onChange_description,
    addressed in *. simpl in Hs.
  destruct e; simpl in Hs;
    repeat match type of Hs with
           | context [match task p with _ => _ end] =>
               destruct (task p) eqn:?
           | context [if ?b then _ else _] => destruct b
           | context [TaskSchema ?x] => destruct (TaskSchema x)
           | context [nth_error ?l ?n] =>
               destruct (nth_error l n) as [[]|]; destruct r
           end;
    try discriminate; injection Hs as <- <-; simpl;
    rewrite ?String.eqb_refl; try reflexivity;
    destruct (task p); reflexivity.
Qed.

(** X8.  Along every run, from any state, every draft handed to [createTask]
    or [updateTask] has a non-empty title and a status of the
    enumeration. *)
Theorem payloads_are_valid (p : Props) (evs : list Event) (st st' : State)
        (effs : list Effect) :
  run p st evs = Some (st', effs) ->
  forallb valid_payload effs = true.
Proof.
  intros Hr.
  apply (run_forallb p (fun _ => True) valid_payload) in Hr;
    [apply Hr | | exact I].
  clear. intros st e st' effs _ Hs. split; [exact I|].
  split_state st. unfold step, handleSubmit, onSubmit_begin,
    onDelete_begin, onChange_title, onChange_status, onChange_description
    in *. simpl in Hs.
  destruct e; simpl in Hs;
    repeat match type of Hs with
           | context [match task p with _ => _ end] =>
               destruct (task p) eqn:?
           | context [if ?b then _ else _] => destruct b
           | context [TaskSchema ?x] => destruct (TaskSchema x) eqn:Hv
           | context [nth_error ?l ?n] =>
               destruct (nth_error l n) as [[]|]; destruct r
           end;
    try discriminate; injection Hs as <- <-; simpl; try reflexivity;
    destruct (TaskSchema_inl _ _ Hv) as (_ & Hne & _ & Hm & _);
    apply String.eqb_neq in Hne; rewrite Hne, Hm; reflexivity.
Qed.


(** X10.  With a task supplied, no run from the mounted component ever
    replaces the route: saving an existing task keeps the user on the
    page. *)
Theorem edit_mode_never_replaces_route (p : Props) (evs : list Event)
        (st : State) (effs : list Effect) :
  has_task p = true ->
  run p (init p) evs = Some (st, effs) ->
  count is_router_replace effs = 0.
Proof.
  intros Ht Hr.
  apply (run_forallb p (fun s => consistent p s = true)
           (fun e => negb (is_router_replace e))) in Hr.
  - destruct Hr as [_ Hr]. unfold count.
    induction effs as [|a effs IH]; simpl in *; [reflexivity|].
    apply andb_prop in Hr. destruct Hr as [Ha Hr].
    destruct (is_router_replace a); [discriminate|]. apply IH, Hr.
  - clear evs st effs Hr. intros st e st' effs Hc Hs.
    split; [eapply step_consistent; eassumption|].
    split_props p. split_state st.
    unfold consistent, step, usable, dialogShown, handleSubmit,
      onSubmit_begin, onDelete_begin, onChange_title, onChange_status,
    onChange_description, has_task in *; simpl in *.
    destruct tk as [t|]; [|discriminate].
    short_inflight fl; simpl in Hc;
      try (rewrite ?andb_false_r in Hc; discriminate).
    all: destruct e; simpl in Hs.
    all: repeat match type of Hs with
                | context [if ?b then _ else _] => destruct b
                | context [TaskSchema ?x] => destruct (TaskSchema x)
                | context [nth_error _ ?n] =>
                    destruct n as [|[|n]]; simpl in Hs; try discriminate;
                    destruct r; simpl in Hs
                end.
    all: try discriminate.
    all: injection Hs as <- <-; reflexivity.
  - apply init_consistent.
Qed.

(** X11.  In a reachable state, while a save is in flight none of the
    three fields can be edited and the form cannot be submitted, by
    button or by Enter, nor can the confirmation be opened or accepted.
    While only a delete is in flight the buttons are blocked as well,
    but the three fields can still be edited, the inputs being disabled
    by saving only. *)
Theorem events_while_busy (p : Props) (st : State) :
  reachable p st ->
  (isSaving st = true ->
   (forall s, step p st (ChangeTitle s) = None /\
              step p st (ChangeStatus s) = None /\
              step p st (ChangeDescription s) = None) /\
   step p st ClickSave = None /\
   step p st PressEnter = None /\
   step p st ClickDelete = None /\
   step p st ClickContinue = None) /\
  (isDeleting st = true -> isSaving st = false ->
   (forall s, exists st',
       step p st (ChangeTitle s) = Some (st', []) /\
       FormValues.title (values st') = JsString s /\
       isDeleting st' = true) /\
   (forall s, is_status s = true -> exists st',
       step p st (ChangeStatus s) = Some (st', []) /\
       FormValues.status (values st') = JsString s /\
       isDeleting st' = true) /\
   (forall s, exists st',
       step p st (ChangeDescription s) = Some (st', []) /\
       FormValues.description (values st') = JsString s /\
       isDeleting st' = true) /\
   step p st ClickSave = None /\
   step p st ClickDelete = None /\
   step p st ClickContinue = None).
Proof.
  intros Hr.
  pose proof (reachable_consistent _ _ Hr) as Hc. clear Hr.
  split_props p. split_state st.
  unfold consistent, step, usable, dialogShown, handleSubmit,
    implicit_submission, onChange_title, onChange_status,
    onChange_description, saveButton, deleteButton, has_task in *;
    simpl in *.
  short_inflight fl; simpl in Hc;
    try (rewrite ?andb_false_r in Hc; discriminate).
  all: destruct tk as [t|], cu, cd, sv, dl, dg; simpl in Hc;
    try discriminate.
  all: split; [intros Hb; try discriminate | intros Hb Hb'; try discriminate].
  all: simpl; rewrite ?andb_false_r; simpl.
  all: repeat split.
  all: try (intros s Hm; rewrite Hm).
  all: try (destruct sb; eexists; repeat split).
Qed.

(** X12.  After a rejected Save the same Save can be issued again at once and
    repeats the very same gateway call: nothing of the draft is lost
    between the two attempts. *)
Theorem save_can_be_retried (p : Props) (st : State) (data : FormData.t)
        (err : GatewayError) :
  reachable p st ->
  usable p st (saveButton p st) = true ->
  TaskSchema (values st) = inl data ->
  exists call st',
    is_gateway_call call = true /\
    run p st [ClickSave; Settle 0 (Rejected err); ClickSave] =
      Some (st', [call; toast "Error saving task" destructive; call]) /\
    values st' = values st /\
    lifecycle st' = Some Saving.
Proof.
  intros Hr Hu Hv.
  pose proof (reachable_consistent _ _ Hr) as Hc.
  split_props p. split_state st.
  unfold consistent, run, step, usable, dialogShown, handleSubmit,
    onSubmit_begin, has_task in *; simpl in *.
  destruct sv, dl; simpl in Hu;
    try (rewrite andb_false_r in Hu; discriminate).
  short_inflight fl; simpl in Hc;
    try (rewrite ?andb_false_r in Hc; discriminate).
  destruct tk as [t|], cu, cc, cd, dg; simpl in Hu; try discriminate;
    simpl; rewrite Hv; simpl; rewrite Hv; simpl;
    do 2 eexists; (split; [|repeat split]); reflexivity.
Qed.

(** X13.  The status select offers one option per member of the enumeration,
    in order and labelled by [generateLabel]; every offered value passes
    the status rule of the schema, and every value that passes it is
    offered. *)
Theorem statuses_are_the_valid_choices (generateLabel : string -> string) :
  map value (statuses generateLabel) = TaskStatus /\
  map label (statuses generateLabel) = map generateLabel TaskStatus /\
  forall s,
    z_nativeEnum (JsString s) = inl s <->
    exists o, In o (statuses generateLabel) /\ value o = s.
Proof.
  unfold statuses. split; [|split].
  - rewrite map_map. simpl. apply map_id.
  - rewrite map_map. reflexivity.
  - intros s. unfold z_nativeEnum, is_status. split.
    + destruct (existsb (String.eqb s) TaskStatus) eqn:He; [|discriminate].
      intros _. apply existsb_exists in He. destruct He as (x & Hin & Hx).
      apply String.eqb_eq in Hx. subst x.
      exists (mkSelectOption (generateLabel s) s). split; [|reflexivity].
      apply in_map_iff. exists s. split; [reflexivity|exact Hin].
    + intros (o & Hin & <-). apply in_map_iff in Hin.
      destruct Hin as (x & <- & Hin). simpl.
      assert (He : existsb (String.eqb x) TaskStatus = true).
      { apply existsb_exists. exists x. split; [exact Hin|].
        apply String.eqb_refl. }
      rewrite He. reflexivity.
Qed.

End Workflow.

(** ** The examples *)

Lemma ship_report_reachable :
  reachable sample_statuses new_task_props ship_report.
Proof.
  exists [ChangeTitle "Ship report"; ChangeStatus "InProgress"], [].
  reflexivity.
Defined.

Lemma untitled7_reachable :
  reachable sample_statuses edit_props untitled7.
Proof.
  exists [ChangeTitle ""], []. reflexivity.
Defined.


Lemma saving7_reachable :
  reachable sample_statuses edit_props saving7.
Proof.
  exists [ClickSave], [updateTask "7" task7_data]. reflexivity.
Defined.

Lemma init_reachable (p : Props) : reachable sample_statuses p (init p).
Proof.
  exists [], []. reflexivity.
Defined.

(** Creation mode, title "Ship report", status "InProgress", empty
    description, and [createTask] returning "42". *)
Lemma save_in_creation_mode_example :
  task new_task_props = None /\
  canCreate new_task_props = true /\
  lifecycle ship_report = Some Idle /\
  TaskSchema sample_statuses (values ship_report) = inl ship_report_data /\
  exists st1 st2 effs,
    step sample_statuses new_task_props ship_report ClickSave =
      Some (st1, [createTask ship_report_data]) /\
    lifecycle st1 = Some Saving /\
    step sample_statuses new_task_props st1
         (Settle 0 (Fulfilled (JsString "42"))) = Some (st2, effs) /\
    lifecycle st2 = Some Idle /\
    effs = [router_replace "/tasks/42"; toast "Task saved" default] /\
    count is_navigation effs = 1 /\
    count is_success_notification effs = 1 /\
    count is_failure_notification effs = 0.
Proof.
  repeat (split; [reflexivity|]).
  apply (save_in_creation_mode sample_statuses new_task_props ship_report
           ship_report_data "42");
    [reflexivity | reflexivity | exact ship_report_reachable
    | reflexivity | reflexivity].
Defined.



(** Cancelling the confirmation of task "7". *)
Lemma cancel_confirmation_example :
  dialogShown edit_props confirming7 = true /\
  exists st',
    step sample_statuses edit_props confirming7 ClickCancel = Some (st', []) /\
    values st' = values confirming7 /\
    errors st' = errors confirming7 /\
    isSaving st' = isSaving confirming7 /\
    isDeleting st' = isDeleting confirming7 /\
    lifecycle st' = lifecycle confirming7 /\
    inflight st' = inflight confirming7.
Proof.
  split; [reflexivity|].
  apply (delete_requires_confirmation sample_statuses edit_props confirming7).
  reflexivity.
Defined.

(** While task "7" is being saved by a user who may update. *)
Lemma saving_blocks_example :
  rendered (saveButton edit_props saving7) = true /\
  reachable sample_statuses edit_props saving7 /\
  isSaving saving7 || isDeleting saving7 = true /\
  disabled (saveButton edit_props saving7) = true /\
  disabled (deleteButton edit_props saving7) = true /\
  step sample_statuses edit_props saving7 ClickSave = None /\
  step sample_statuses edit_props saving7 PressEnter = None /\
  step sample_statuses edit_props saving7 ClickDelete = None /\
  step sample_statuses edit_props saving7 ClickContinue = None /\
  forall e st' effs,
    step sample_statuses edit_props saving7 e = Some (st', effs) ->
    count is_gateway_call effs = 0.
Proof.
  split; [reflexivity|]. split; [exact saving7_reachable|].
  split; [reflexivity|].
  apply (no_overlap_when_save_is_offered sample_statuses edit_props saving7
           eq_refl saving7_reachable).
  reflexivity.
Defined.

(** A new-task form without [canCreate], an edit form without
    [canUpdate], an edit form without [canDelete]. *)
Lemma capability_flags_example :
  step sample_statuses (mkProps None true false true)
       (init (mkProps None true false true)) ClickSave = None /\
  step sample_statuses (mkProps (Some task7) false true true)
       (init (mkProps (Some task7) false true true)) ClickSave = None /\
  step sample_statuses (mkProps (Some task7) true true false)
       (init (mkProps (Some task7) true true false)) ClickDelete = None.
Proof.
  split; [|split].
  - destruct (capability_flags_gate_buttons sample_statuses
                (mkProps None true false true)
                (init (mkProps None true false true))) as (H & _).
    apply H; reflexivity.
  - destruct (capability_flags_gate_buttons sample_statuses
                (mkProps (Some task7) false true true)
                (init (mkProps (Some task7) false true true)))
      as (_ & H & _).
    apply H; reflexivity.
  - destruct (capability_flags_gate_buttons sample_statuses
                (mkProps (Some task7) true true false)
                (init (mkProps (Some task7) true true false)))
      as (_ & _ & H & _).
    apply H; reflexivity.
Defined.


(** Saving task "7" with [updateTask] fulfilled. *)
Lemma save_in_edit_mode_example :
  task edit_props = Some task7 /\
  canUpdate edit_props = true /\
  reachable sample_statuses edit_props (init edit_props) /\
  TaskSchema sample_statuses (values (init edit_props)) = inl task7_data /\
  exists st1 st2 effs,
    step sample_statuses edit_props (init edit_props) ClickSave =
      Some (st1, [updateTask "7" task7_data]) /\
    FormValues.title (values (init edit_props)) = JsString "Fix login" /\
    FormValues.status (values (init edit_props)) = JsString "Todo" /\
    lifecycle st1 = Some Saving /\
    step sample_statuses edit_props st1 (Settle 0 (Fulfilled JsUndefined)) =
      Some (st2, effs) /\
    lifecycle st2 = Some Idle /\
    effs = [toast "Task saved" default] /\
    count is_success_notification effs = 1 /\
    count is_navigation effs = 0 /\
    values st2 = values (init edit_props).
Proof.
  split; [reflexivity|]. split; [reflexivity|].
  split; [apply init_reachable|]. split; [reflexivity|].
  apply (save_in_edit_mode sample_statuses edit_props task7 (init edit_props)
           task7_data JsUndefined);
    [reflexivity | reflexivity | apply init_reachable
    | reflexivity | reflexivity | reflexivity].
Defined.



(** Task "7" has a [null] description: it is seeded as "". *)
Lemma form_values_example :
  task edit_props = Some task7 /\
  is_string (Task.description task7) = false /\
  FormValues.description (defaultValues edit_props) = JsString "" /\
  all_strings (defaultValues edit_props) = true.
Proof.
  split; [reflexivity|]. split; [reflexivity|].
  destruct (form_values_are_strings sample_statuses edit_props)
    as (Hall & _ & Hedit & _).
  split; [|exact Hall].
  destruct (Hedit task7 eq_refl) as (_ & Hd & _).
  apply Hd. reflexivity.
Defined.

(** ** The avatar and the layout *)

(** X14.  [UserAvatar] hands its props on unchanged and shows either the
    picture or the fallback, never both: the picture, with the user's
    image as source, exactly when the image is a non-empty string; the
    fallback carrying the user's name when the image is [undefined],
    [null] or the empty string. *)
Theorem UserAvatar_picture_or_fallback {P : Type} (user : User.t)
        (props : P) :
  fst (UserAvatar user props) = props /\
  ((exists s, User.image user = JsString s /\ s <> "" /\
              snd (UserAvatar user props) =
                AvatarImage "Picture" (JsString s)) \/
   ((User.image user = JsUndefined \/ User.image user = JsNull \/
     User.image user = JsString "") /\
    snd (UserAvatar user props) = AvatarFallback (User.name user))).
Proof.
  split; [reflexivity|].
  destruct user as [n [| |s] e]; unfold UserAvatar; simpl.
  - right. split; [left; reflexivity|reflexivity].
  - right. split; [right; left; reflexivity|reflexivity].
  - destruct (s =? "") eqn:Es; simpl.
    + apply String.eqb_eq in Es. subst s.
      right. split; [right; right; reflexivity|reflexivity].
    + apply String.eqb_neq in Es.
      left. exists s. repeat split. exact Es.
Qed.

(** X15.  [Layout] answers [notFound] exactly when there is no session or the
    session has no user; otherwise it renders the shell around the very
    children it was given, with the account menu showing the name, image
    and email of the session's user. *)
Theorem Layout_requires_user {C : Type} (session : option Session.t)
        (content : C) :
  (Layout session content = notFound <->
   session = None \/ session = Some (Session.mk None)) /\
  forall page,
    Layout session content = rendered_shell page ->
    exists u,
      session = Some (Session.mk (Some u)) /\
      children page = content /\
      account page = u.
Proof.
  destruct session as [[[u|]]|]; simpl.
  - split.
    + split; [discriminate|]. intros [H|H]; discriminate.
    + intros page H. injection H as <-. exists u. simpl.
      destruct u; repeat split.
  - split; [split; [intros _; right; reflexivity|reflexivity]|].
    intros page H. discriminate.
  - split; [split; [intros _; left; reflexivity|reflexivity]|].
    intros page H. discriminate.
Qed.

(** ** Further examples *)

Lemma deleting7_reachable :
  reachable sample_statuses edit_props deleting7.
Proof.
  exists [ClickDelete; ClickContinue], [deleteTask "7"]. reflexivity.
Defined.

(** The draft with an empty title and an unknown status. *)
Lemma TaskSchema_rejects_example :
  FieldErrors.title (FieldErrors.mk (Some too_small) (Some invalid_enum_value)
                       None) = None <->
  exists s, JsString "" = JsString s /\ s <> "".
Proof.
  apply (TaskSchema_rejects sample_statuses
           (FormValues.mk (JsString "") (JsString "Archived") JsUndefined)
           (FieldErrors.mk (Some too_small) (Some invalid_enum_value) None)
           eq_refl).
Defined.

(** A fresh form, then the title "Ship report". *)
Lemma fresh_form_example :
  exists st',
    run sample_statuses new_task_props (init new_task_props)
        [ChangeTitle "Ship report"; ClickSave] =
      Some (st', [createTask (FormData.mk "Ship report" "Todo" (Some ""))]) /\
    lifecycle st' = Some Saving.
Proof.
  apply (fresh_form_needs_title sample_statuses new_task_props "Ship report");
    [reflexivity | reflexivity | reflexivity | discriminate].
Defined.

(** Task "7", whose description is [null], saved untouched. *)
Lemma untouched_task_example :
  exists st',
    run sample_statuses edit_props (init edit_props) [ClickSave] =
      Some (st', [updateTask "7" (FormData.mk "Fix login" "Todo" (Some ""))]) /\
    lifecycle st' = Some Saving /\
    values st' = defaultValues edit_props.
Proof.
  apply (untouched_task_saves_its_fields sample_statuses edit_props task7
           "Fix login" "Todo");
    [reflexivity | reflexivity | reflexivity | discriminate
    | reflexivity | discriminate | reflexivity].
Defined.

Lemma status_example :
  FormValues.status (values untitled7) =
    FormValues.status (defaultValues edit_props) \/
  exists s, FormValues.status (values untitled7) = JsString s /\
            is_status sample_statuses s = true.
Proof.
  apply (status_is_seed_or_member sample_statuses edit_props untitled7
           untitled7_reachable).
Defined.

(** A rejected save of task "7" followed by a second attempt. *)
Lemma balance_example :
  count is_gateway_call
        [updateTask "7" task7_data; toast "Error saving task" destructive;
         updateTask "7" task7_data] =
    count is_notification
        [updateTask "7" task7_data; toast "Error saving task" destructive;
         updateTask "7" task7_data] + length (inflight saving7).
Proof.
  apply (calls_and_notifications_balance sample_statuses edit_props
           [ClickSave; Settle 0 (Rejected RemoteError); ClickSave]).
  reflexivity.
Defined.

Lemma addressed_example :
  forallb (addressed edit_props)
          [updateTask "7" task7_data; toast "Error saving task" destructive;
           updateTask "7" task7_data] = true.
Proof.
  apply (calls_are_addressed sample_statuses edit_props
           [ClickSave; Settle 0 (Rejected RemoteError); ClickSave]
           (init edit_props) saving7).
  reflexivity.
Defined.

Lemma payload_example :
  forallb (valid_payload sample_statuses)
          [updateTask "7" task7_data; toast "Error saving task" destructive;
           updateTask "7" task7_data] = true.
Proof.
  apply (payloads_are_valid sample_statuses edit_props
           [ClickSave; Settle 0 (Rejected RemoteError); ClickSave]
           (init edit_props) saving7).
  reflexivity.
Defined.


Lemma edit_mode_route_example :
  count is_router_replace
        [updateTask "7" task7_data; toast "Task saved" default] = 0.
Proof.
  apply (edit_mode_never_replaces_route sample_statuses edit_props
           [ClickSave; Settle 0 (Fulfilled JsUndefined)]
           (setIsSubmitted true (init edit_props)));
    reflexivity.
Defined.

(** While task "7" is being deleted its title can still be edited. *)
Lemma busy_example :
  exists st',
    step sample_statuses edit_props deleting7 (ChangeTitle "Fix signup") =
      Some (st', []) /\
    FormValues.title (values st') = JsString "Fix signup" /\
    isDeleting st' = true.
Proof.
  destruct (events_while_busy sample_statuses edit_props deleting7
              deleting7_reachable) as [_ H].
  destruct (H eq_refl eq_refl) as (Ht & _).
  exact (Ht "Fix signup").
Defined.

Lemma retry_example :
  exists call st',
    is_gateway_call call = true /\
    run sample_statuses edit_props (init edit_props)
        [ClickSave; Settle 0 (Rejected RemoteError); ClickSave] =
      Some (st', [call; toast "Error saving task" destructive; call]) /\
    values st' = values (init edit_props) /\
    lifecycle st' = Some Saving.
Proof.
  apply (save_can_be_retried sample_statuses edit_props (init edit_props)
           task7_data RemoteError);
    [apply init_reachable | reflexivity | reflexivity].
Defined.

(** ** Submission by the keyboard *)

(** C5.  Task "7" opened by a user who may delete but not update, so
    that the Save button is not rendered.  The confirmation is accepted
    and, while [deleteTask] is in flight, Enter in the title input
    submits the form: [updateTask] is called before the delete has
    settled, both flags are set, and two calls are in flight, although
    the Save button and the Delete button would both be disabled. *)
Theorem keyboard_submit_overlaps_delete :
  run sample_statuses readonly_props (init readonly_props)
      [ClickDelete; ClickContinue; PressEnter] =
    Some (overlap7, [deleteTask "7"; updateTask "7" task7_data]) /\
  isSaving overlap7 = true /\
  isDeleting overlap7 = true /\
  lifecycle overlap7 = None /\
  length (inflight overlap7) = 2 /\
  disabled (saveButton readonly_props overlap7) = true /\
  disabled (deleteButton readonly_props overlap7) = true.
Proof.
  split.
  - unfold run. simpl. reflexivity.
  - unfold overlap7, lifecycle. simpl. repeat split.
Qed.

(** C6.  The Save button is not rendered, and cannot be clicked, for a
    new-task form without [canCreate] and for task "7" without
    [canUpdate]; yet Enter in the title input submits the form, and the
    gateway is called: [createTask] in the first case, [updateTask] in
    the second. *)
Theorem keyboard_submit_ignores_capability :
  (rendered (saveButton no_create_props (init no_create_props)) = false /\
   step sample_statuses no_create_props (init no_create_props) ClickSave =
     None /\
   exists st,
     run sample_statuses no_create_props (init no_create_props)
         [ChangeTitle "Ship report"; PressEnter] =
       Some (st, [createTask (FormData.mk "Ship report" "Todo" (Some ""))])) /\
  (rendered (saveButton readonly_props (init readonly_props)) = false /\
   step sample_statuses readonly_props (init readonly_props) ClickSave =
     None /\
   exists st,
     run sample_statuses readonly_props (init readonly_props) [PressEnter] =
       Some (st, [updateTask "7" task7_data])).
Proof.
  split; (split; [reflexivity|]; split; [reflexivity|]);
    eexists; reflexivity.
Qed.
